(** * The provider-config layer of the control plane machine set operator

    A shallow embedding of
    [pkg/machineproviders/providers/openshift/machine/v1beta1/providerconfig/providerconfig.go]
    and the properties of its dispatcher ([NewProviderConfig]) and of the
    methods of [providerConfig].

    Go values are modelled as follows.
    - An interface value is an [option]: [None] is Go's [nil].
    - A function returning [(T, error)] returns a pair [T * error].
    - [string] and [configv1.PlatformType] are [string]; [[]byte] is [list byte].
    - [errors.New] and [fmt.Errorf] with the [%w] verb build the two kinds of
      error value the file creates; an error made by [errors.New] carries
      the address of its allocation, and [errors.Is] walks the chain of
      wrapped errors comparing addresses. *)

From Stdlib Require Import Strings.String Strings.Ascii Strings.Byte.
From Stdlib Require Import Lists.List Bool.Bool Arith.PeanoNat.
Import ListNotations.
Local Open Scope string_scope.

(** ** Go's [errors] package and [fmt.Errorf] *)

Module errors.

(** The dynamic values of type [error] this package builds:
    [*errors.errorString] (from [errors.New]) and [*fmt.wrapError] (from
    [fmt.Errorf] with one [%w] verb), which keeps the formatted message and
    the wrapped error.  An [*errors.errorString] is a pointer: [ptr] is the
    address of the allocation [errors.New] made, and two calls of
    [errors.New] never share one, whatever their texts. *)
Inductive errorValue : Type :=
| errorString (ptr : nat) (s : string)
| wrapError (msg : string) (err : errorValue).

(** The interface type [error]; [None] is [nil]. *)
Definition error : Type := option errorValue.

(** [errors.New(text)], allocating at the address [ptr]. *)
Definition New (ptr : nat) (text : string) : errorValue :=
  errorString ptr text.

(** The method [Error() string]. *)
Definition Error (e : errorValue) : string :=
  match e with
  | errorString _ s => s
  | wrapError msg _ => msg
  end.

(** [errors.Unwrap]. *)
Definition Unwrap (e : errorValue) : error :=
  match e with
  | errorString _ _ => None
  | wrapError _ err => Some err
  end.

(** Go's [==] on two error values.  Two [*errors.errorString] are equal
    when they are the same allocation, whatever their texts; an
    [*errors.errorString] never equals a [*fmt.wrapError].  The package uses
    no [*fmt.wrapError] as the target of a comparison; two of them are
    compared by what they hold. *)
Fixpoint eqb (a b : errorValue) : bool :=
  match a, b with
  | errorString p _, errorString q _ => Nat.eqb p q
  | wrapError m x, wrapError n y => String.eqb m n && eqb x y
  | _, _ => false
  end.

(** The loop of [errors.Is] on non-nil values: compare, then unwrap. *)
Fixpoint is_ (err target : errorValue) : bool :=
  eqb err target
  || match err with
     | errorString _ _ => false
     | wrapError _ inner => is_ inner target
     end.

(** [errors.Is]: with a nil argument it is [err == target]. *)
Definition Is (err target : error) : bool :=
  match err, target with
  | Some e, Some t => is_ e t
  | None, None => true
  | _, _ => false
  end.

End errors.

Module fmt.

(** [fmt.Errorf(prefix + "%w", err)]. *)
Definition Errorf_prefix_w (prefix : string) (err : errors.errorValue)
  : errors.errorValue :=
  errors.wrapError (prefix ++ errors.Error err) err.

(** [fmt.Errorf("%w" + sep + "%s", err, s)]. *)
Definition Errorf_w_sep_s (err : errors.errorValue) (sep s : string)
  : errors.errorValue :=
  errors.wrapError (errors.Error err ++ sep ++ s) err.

End fmt.

(** ** The types of [github.com/openshift/api] the package reads *)

Module configv1.

Definition PlatformType : Type := string.

Definition AWSPlatformType : PlatformType := "AWS".
Definition AzurePlatformType : PlatformType := "Azure".

End configv1.

Module machinev1.

(** [runtime.RawExtension]: the raw bytes of the provider spec. *)
Record RawExtension : Type := { Raw : list byte }.

(** [machinev1beta1.ProviderSpec]; [Value] is a pointer. *)
Record ProviderSpec : Type := { Value : option RawExtension }.

(** [machinev1beta1.MachineSpec], the field the package reads. *)
Record MachineSpec : Type := { ProviderSpec_ : ProviderSpec }.

(** [machinev1.FailureDomains], the platform discriminator. *)
Record FailureDomains : Type := { Platform : configv1.PlatformType }.

Record OpenShiftMachineV1Beta1MachineTemplate : Type :=
  { FailureDomains_ : FailureDomains;
    Spec : MachineSpec }.

End machinev1.

(** ** Package [failuredomain] *)

Module failuredomain.

(** Modelled from the spec: package [failuredomain] is imported by the file
    but is not among the sources.  The spec describes a Failure Domain as a
    value object keyed by platform type plus placement coordinates (zone,
    subnet). *)
Record failureDomain : Type :=
  { platformType : configv1.PlatformType;
    zone : string;
    subnet : string }.

(** The interface [failuredomain.FailureDomain]; [None] is [nil]. *)
Definition FailureDomain : Type := option failureDomain.

(** Modelled from the spec: the platform a failure domain is tagged with
    (the method [Type()] of the interface, declared outside the sources). *)
Definition Type_ (fd : failureDomain) : configv1.PlatformType :=
  platformType fd.

End failuredomain.

(** ** Package [providerconfig] *)

Module providerconfig.

Import errors.

(** [errMismatchedPlatformTypes] and [errUnsupportedPlatformType]: the two
    allocations of the package's [var] block, at the addresses 1 and 2. *)
Definition errMismatchedPlatformTypes : errorValue :=
  New 1 "mistmatched platform types".

Definition errUnsupportedPlatformType : errorValue :=
  New 2 "unsupported platform type".

(** Modelled from the spec: [AWSProviderConfig] is declared in another file
    of the package, which is not among the sources.  The spec describes it
    as the typed AWS machine provider spec, with an availability zone, a
    subnet and an instance type. *)
Record AWSProviderConfig : Type :=
  { availabilityZone : string;
    subnetID : string;
    instanceType : string }.

(** Go's zero value of the struct. *)
Definition zeroAWSProviderConfig : AWSProviderConfig :=
  {| availabilityZone := ""; subnetID := ""; instanceType := "" |}.


(** [providerConfig], the implementation of the interface. *)
Record providerConfig : Type :=
  { platformType : configv1.PlatformType;
    aws : AWSProviderConfig }.

(** The interface [ProviderConfig]: [None] is [nil], [Some p] holds a
    [providerConfig], the one implementation the file declares. *)
Definition ProviderConfig : Type := option providerConfig.

(** [func (p providerConfig) InjectFailureDomain(failuredomain.FailureDomain)
    (ProviderConfig, error)] *)
Definition InjectFailureDomain (p : providerConfig)
    (_ : failuredomain.FailureDomain) : ProviderConfig * error :=
  (Some p, None).

(** [func (p providerConfig) ExtractFailureDomain() failuredomain.FailureDomain] *)
Definition ExtractFailureDomain (p : providerConfig)
  : failuredomain.FailureDomain :=
  None.

(** [func (p providerConfig) Equal(ProviderConfig) (bool, error)] *)
Definition Equal (p : providerConfig) (_ : ProviderConfig) : bool * error :=
  (false, None).

(** [func (p providerConfig) RawConfig() ([]byte, error)] *)
Definition RawConfig (p : providerConfig) : list byte * error :=
  ([], None).

(** [func (p providerConfig) Type() configv1.PlatformType] *)
Definition Type_ (p : providerConfig) : configv1.PlatformType :=
  platformType p.

(** [func (p providerConfig) AWS() AWSProviderConfig] *)
Definition AWS (p : providerConfig) : AWSProviderConfig :=
  aws p.

(** [getPlatformType] *)
Definition getPlatformType
    (tmpl : machinev1.OpenShiftMachineV1Beta1MachineTemplate)
  : configv1.PlatformType * error :=
  ("", None).


(** The type of [newAWSProviderConfig]. *)
Definition AWSConstructor : Type :=
  option machinev1.RawExtension -> ProviderConfig * error.

Section Dispatcher.

(** [newAWSProviderConfig] is declared in another file of the package,
    which is not among the sources: the dispatcher takes it as a
    parameter. *)
Variable newAWSProviderConfig : AWSConstructor.

(** [NewProviderConfig] from its second statement on, given what
    [getPlatformType] returned: the error check, then the switch on the
    platform type. *)
Definition dispatch (detected : configv1.PlatformType * error)
    (tmpl : machinev1.OpenShiftMachineV1Beta1MachineTemplate)
  : ProviderConfig * error :=
  let '(platformType, err) := detected in
  match err with
  | Some e =>
      (None, Some (fmt.Errorf_prefix_w "could not determine platform type: " e))
  | None =>
      if String.eqb platformType configv1.AWSPlatformType
      then newAWSProviderConfig
             (machinev1.Value (machinev1.ProviderSpec_ (machinev1.Spec tmpl)))
      else (None, Some (fmt.Errorf_w_sep_s errUnsupportedPlatformType ": " platformType))
  end.

(** [func NewProviderConfig(tmpl) (ProviderConfig, error)] *)
Definition NewProviderConfig
    (tmpl : machinev1.OpenShiftMachineV1Beta1MachineTemplate)
  : ProviderConfig * error :=
  dispatch (getPlatformType tmpl) tmpl.

End Dispatcher.

End providerconfig.

(** ** Concrete inputs *)

Module inputs.

Import machinev1 providerconfig.

(** The double quote character, and a JSON string literal. *)
Definition dq : string := String (ascii_of_nat 34) EmptyString.
Definition quoted (s : string) : string := dq ++ s ++ dq.

(** A provider spec payload [{"kind":k,"placement":{"availabilityZone":z}}]. *)
Definition payload (kind zone : string) : list byte :=
  list_byte_of_string
    ("{" ++ quoted "kind" ++ ":" ++ quoted kind ++ ","
         ++ quoted "placement" ++ ":{" ++ quoted "availabilityZone" ++ ":"
         ++ quoted zone ++ "}}").

Definition template (platform : configv1.PlatformType)
    (value : option RawExtension) : OpenShiftMachineV1Beta1MachineTemplate :=
  {| FailureDomains_ := {| Platform := platform |};
     Spec := {| ProviderSpec_ := {| Value := value |} |} |}.

(** An AWS template: the failure domains name the platform, the provider
    spec is an AWS one in zone us-east-1a. *)
Definition awsTemplate : OpenShiftMachineV1Beta1MachineTemplate :=
  template configv1.AWSPlatformType
    (Some {| Raw := payload "AWSMachineProviderConfig" "us-east-1a" |}).

(** A well-formed template of a platform without an implementation. *)
Definition azureTemplate : OpenShiftMachineV1Beta1MachineTemplate :=
  template configv1.AzurePlatformType
    (Some {| Raw := payload "AzureMachineProviderSpec" "1" |}).

(** A template with no platform in its failure domains and a provider spec
    that is cut off after its first byte: no discriminator can be read. *)
Definition truncatedTemplate : OpenShiftMachineV1Beta1MachineTemplate :=
  template "" (Some {| Raw := list_byte_of_string "{" |}).

Definition awsConfig : providerConfig :=
  {| platformType := configv1.AWSPlatformType;
     aws := {| availabilityZone := "us-east-1a";
               subnetID := "subnet-123";
               instanceType := "m5.xlarge" |} |}.

Definition azureConfig : providerConfig :=
  {| platformType := configv1.AzurePlatformType; aws := zeroAWSProviderConfig |}.

(** A stand-in for [newAWSProviderConfig] that builds nothing. *)
Definition rejectingConstructor : AWSConstructor :=
  fun _ => (None, Some (errors.New 4 "not an AWS provider spec")).

Definition awsFailureDomain : failuredomain.failureDomain :=
  {| failuredomain.platformType := configv1.AWSPlatformType;
     failuredomain.zone := "us-east-1b";
     failuredomain.subnet := "subnet-456" |}.

Definition azureFailureDomain : failuredomain.failureDomain :=
  {| failuredomain.platformType := configv1.AzurePlatformType;
     failuredomain.zone := "2";
     failuredomain.subnet := "" |}.

(** A stand-in for [newAWSProviderConfig] that accepts every provider spec
    that is present and rejects a nil one. *)
Definition acceptingConstructor : AWSConstructor :=
  fun raw =>
    match raw with
    | Some _ => (Some awsConfig, None)
    | None => (None, Some (errors.New 5 "provider spec is nil"))
    end.

End inputs.

(** * Properties *)

Import errors providerconfig inputs.

(** ** Error chains *)

Lemma eqb_refl (e : errorValue) : errors.eqb e e = true.
Proof.
  induction e as [ptr s | msg inner IH]; simpl.
  - apply Nat.eqb_refl.
  - rewrite String.eqb_refl, IH. reflexivity.
Qed.

Lemma is_refl (e : errorValue) : is_ e e = true.
Proof.
  destruct e; simpl; rewrite ?Nat.eqb_refl, ?String.eqb_refl, ?eqb_refl;
    reflexivity.
Qed.

(** An error built with [%w] matches a sentinel made by [errors.New] exactly
    when the error it wraps does. *)
Lemma Is_wrapError_sentinel (msg text : string) (ptr : nat)
    (inner : errorValue) :
  Is (Some (wrapError msg inner)) (Some (New ptr text))
  = Is (Some inner) (Some (New ptr text)).
Proof. reflexivity. Qed.

(** An error made by another call of [errors.New] does not match a sentinel
    of the package, even with the sentinel's text. *)
Lemma Is_other_allocation (ptr : nat) :
  ptr <> 1 ->
  Is (Some (New ptr (Error errMismatchedPlatformTypes)))
     (Some errMismatchedPlatformTypes) = false.
Proof.
  intros Hptr. simpl. rewrite orb_false_r. apply Nat.eqb_neq. exact Hptr.
Qed.


Lemma Is_Errorf_w_sep_s (e : errorValue) (sep s : string) :
  Is (Some (fmt.Errorf_w_sep_s e sep s)) (Some e) = true.
Proof.
  unfold fmt.Errorf_w_sep_s, Is. simpl.
  rewrite is_refl. apply orb_true_r.
Qed.

(** ** The dispatcher *)

(** The switch takes its default branch on every platform type but AWS. *)
Lemma dispatch_default (newAWSProviderConfig : AWSConstructor)
    (platformType : configv1.PlatformType)
    (tmpl : machinev1.OpenShiftMachineV1Beta1MachineTemplate) :
  platformType <> configv1.AWSPlatformType ->
  dispatch newAWSProviderConfig (platformType, None) tmpl
  = (None, Some (fmt.Errorf_w_sep_s errUnsupportedPlatformType ": " platformType)).
Proof.
  intros Hne. unfold dispatch.
  destruct (String.eqb_spec platformType configv1.AWSPlatformType) as [Heq | _].
  - contradiction.
  - reflexivity.
Qed.

(** What [NewProviderConfig] computes, on every template. *)
Lemma NewProviderConfig_eq (newAWSProviderConfig : AWSConstructor)
    (tmpl : machinev1.OpenShiftMachineV1Beta1MachineTemplate) :
  NewProviderConfig newAWSProviderConfig tmpl
  = (None, Some (fmt.Errorf_w_sep_s errUnsupportedPlatformType ": " "")).
Proof.
  unfold NewProviderConfig, getPlatformType.
  apply dispatch_default. discriminate.
Qed.

(** ** Failure domains: injection and extraction *)

(** C10: [InjectFailureDomain] is the identity.  For every [providerConfig]
    [p] and every failure domain [fd] (nil, of the platform of [p] or of
    another one), [p.InjectFailureDomain(fd)] returns [p] itself, with every
    field as it was, and a nil error. *)
Theorem InjectFailureDomain_identity (p : providerConfig)
    (fd : failuredomain.FailureDomain) :
  InjectFailureDomain p fd = (Some p, None)
  /\ option_map Type_ (fst (InjectFailureDomain p fd)) = Some (Type_ p)
  /\ option_map AWS (fst (InjectFailureDomain p fd)) = Some (AWS p)
  /\ snd (InjectFailureDomain p fd) = None.
Proof.
  destruct fd as [fd |]; unfold InjectFailureDomain; simpl; auto.
Qed.

(** C1, at the failing input: injecting the AWS failure domain of zone
    us-east-1b into an AWS provider config succeeds, and extraction from the
    result returns nil, not the failure domain that was injected. *)
Theorem ExtractFailureDomain_after_inject_is_nil :
  failuredomain.Type_ awsFailureDomain = Type_ awsConfig
  /\ exists q,
       InjectFailureDomain awsConfig (Some awsFailureDomain) = (Some q, None)
       /\ ExtractFailureDomain q = None
       /\ ExtractFailureDomain q <> Some awsFailureDomain.
Proof.
  split; [reflexivity |].
  exists awsConfig. repeat split. discriminate.
Qed.

(** ** Equality and mismatched platforms *)

(** C9: [Equal] returns [(false, nil)] on every receiver and every argument,
    nil and the receiver itself included: no value is reported equal to
    itself. *)
Theorem Equal_always_false (p : providerConfig) (q : ProviderConfig) :
  Equal p q = (false, None) /\ Equal p (Some p) = (false, None).
Proof.
  destruct q as [q |]; split; reflexivity.
Qed.

(** C2, at the failing input: an AWS provider config compared with an Azure
    one gives [(false, nil)], and injecting an Azure failure domain into it
    gives the config and a nil error; neither returns
    [errMismatchedPlatformTypes]. *)
Theorem mismatched_platforms_give_no_error :
  Type_ azureConfig <> Type_ awsConfig
  /\ Equal awsConfig (Some azureConfig) = (false, None)
  /\ Is (snd (Equal awsConfig (Some azureConfig)))
        (Some errMismatchedPlatformTypes) = false
  /\ failuredomain.Type_ azureFailureDomain <> Type_ awsConfig
  /\ InjectFailureDomain awsConfig (Some azureFailureDomain)
     = (Some awsConfig, None)
  /\ Is (snd (InjectFailureDomain awsConfig (Some azureFailureDomain)))
        (Some errMismatchedPlatformTypes) = false.
Proof.
  repeat split; try reflexivity; discriminate.
Qed.

(** ** The platform-specific accessor *)



(** ** The dispatcher on every template *)

(** C8: on every machine template [getPlatformType] returns the empty
    platform type and a nil error; [NewProviderConfig] then returns a nil
    [ProviderConfig] and an error that wraps [errUnsupportedPlatformType].  No
    template makes [NewProviderConfig] succeed, whatever
    [newAWSProviderConfig] does. *)
Theorem NewProviderConfig_never_succeeds
    (newAWSProviderConfig : AWSConstructor)
    (tmpl : machinev1.OpenShiftMachineV1Beta1MachineTemplate) :
  getPlatformType tmpl = ("", None)
  /\ fst (NewProviderConfig newAWSProviderConfig tmpl) = None
  /\ snd (NewProviderConfig newAWSProviderConfig tmpl) <> None
  /\ Is (snd (NewProviderConfig newAWSProviderConfig tmpl))
        (Some errUnsupportedPlatformType) = true
  /\ option_map Unwrap (snd (NewProviderConfig newAWSProviderConfig tmpl))
     = Some (Some errUnsupportedPlatformType).
Proof.
  rewrite NewProviderConfig_eq. simpl.
  repeat split; try reflexivity. discriminate.
Qed.

(** C3, at the failing input: the failure domains of [awsTemplate] name AWS,
    a supported platform, and [NewProviderConfig] returns no provider config
    but the unsupported-platform error, with an empty platform name. *)
Theorem NewProviderConfig_rejects_AWS_template
    (newAWSProviderConfig : AWSConstructor) :
  machinev1.Platform (machinev1.FailureDomains_ awsTemplate)
  = configv1.AWSPlatformType
  /\ NewProviderConfig newAWSProviderConfig awsTemplate
     = (None, Some (wrapError "unsupported platform type: "
                              errUnsupportedPlatformType))
  /\ option_map Type_ (fst (NewProviderConfig newAWSProviderConfig awsTemplate))
     <> Some configv1.AWSPlatformType.
Proof.
  rewrite NewProviderConfig_eq.
  split; [reflexivity | split; [reflexivity | discriminate]].
Qed.

(** C4, at the failing input: [NewProviderConfig] builds nothing from the AWS
    template; and for a provider config [p] in hand, [RawConfig] returns no
    bytes, the dispatcher builds nothing from them, and [p] is not [Equal] to
    itself. *)
Theorem round_trip_fails (newAWSProviderConfig : AWSConstructor)
    (p : providerConfig) :
  fst (NewProviderConfig newAWSProviderConfig awsTemplate) = None
  /\ RawConfig p = ([], None)
  /\ fst (NewProviderConfig newAWSProviderConfig
            (template (Type_ p) (Some {| machinev1.Raw := fst (RawConfig p) |})))
     = None
  /\ fst (Equal p (Some p)) = false.
Proof.
  rewrite !NewProviderConfig_eq. repeat split.
Qed.

(** ** The failure modes of the dispatcher *)

(** C5, at the failing input: the discriminator of [truncatedTemplate] cannot
    be read, and [getPlatformType] reports no error for it.  Whatever
    [newAWSProviderConfig] is, [NewProviderConfig] returns for it the
    unsupported-platform error, the very result it returns for the
    well-formed Azure template, and never the error of its own
    "could not determine platform type" branch. *)
Theorem NewProviderConfig_truncated_template
    (newAWSProviderConfig : AWSConstructor) :
  getPlatformType truncatedTemplate = ("", None)
  /\ NewProviderConfig newAWSProviderConfig truncatedTemplate
     = (None, Some (wrapError "unsupported platform type: "
                              errUnsupportedPlatformType))
  /\ NewProviderConfig newAWSProviderConfig truncatedTemplate
     = NewProviderConfig newAWSProviderConfig azureTemplate
  /\ (forall e : errorValue,
        snd (NewProviderConfig newAWSProviderConfig truncatedTemplate)
        <> Some (fmt.Errorf_prefix_w "could not determine platform type: " e)).
Proof.
  rewrite !NewProviderConfig_eq.
  repeat split. intros e Hsame. discriminate Hsame.
Qed.

(** ** More on the dispatcher *)

(** X1: the switch of [NewProviderConfig] yields a provider config in one way
    only.  Run on a detected platform type and error, the dispatcher returns
    the provider config [p] exactly when the detection reported no error, the
    platform type is AWS and [newAWSProviderConfig] returned [p] for the
    provider spec of the template. *)
Theorem dispatch_succeeds_iff (newAWSProviderConfig : AWSConstructor)
    (platformType : configv1.PlatformType) (err : error)
    (tmpl : machinev1.OpenShiftMachineV1Beta1MachineTemplate)
    (p : providerConfig) :
  fst (dispatch newAWSProviderConfig (platformType, err) tmpl) = Some p
  <-> err = None
      /\ platformType = configv1.AWSPlatformType
      /\ fst (newAWSProviderConfig
                (machinev1.Value (machinev1.ProviderSpec_ (machinev1.Spec tmpl))))
         = Some p.
Proof.
  unfold dispatch. destruct err as [e |]; simpl.
  - split; [discriminate | intros [He _]; discriminate He].
  - destruct (String.eqb_spec platformType configv1.AWSPlatformType)
      as [Heq | Hne]; simpl.
    + split; [intros Hp; auto | intros (_ & _ & Hp); exact Hp].
    + split; [discriminate | intros (_ & Heq & _); contradiction].
Qed.

Lemma dispatch_succeeds_iff_witness :
  fst (dispatch acceptingConstructor (configv1.AWSPlatformType, None)
         awsTemplate) = Some awsConfig
  /\ fst (acceptingConstructor
            (machinev1.Value
               (machinev1.ProviderSpec_ (machinev1.Spec awsTemplate))))
     = Some awsConfig.
Proof.
  split; [reflexivity |].
  apply (proj1 (dispatch_succeeds_iff acceptingConstructor
                  configv1.AWSPlatformType None awsTemplate awsConfig)).
  reflexivity.
Defined.

(** X3: the dispatcher never brings in [errMismatchedPlatformTypes].  When
    neither the error of the detection nor the error [newAWSProviderConfig]
    returns for the provider spec matches that sentinel, the error of the
    dispatcher does not match it either. *)
Theorem dispatch_adds_no_mismatch (newAWSProviderConfig : AWSConstructor)
    (platformType : configv1.PlatformType) (err : error)
    (tmpl : machinev1.OpenShiftMachineV1Beta1MachineTemplate) :
  Is err (Some errMismatchedPlatformTypes) = false ->
  Is (snd (newAWSProviderConfig
             (machinev1.Value (machinev1.ProviderSpec_ (machinev1.Spec tmpl)))))
     (Some errMismatchedPlatformTypes) = false ->
  Is (snd (dispatch newAWSProviderConfig (platformType, err) tmpl))
     (Some errMismatchedPlatformTypes) = false.
Proof.
  intros Hdetect Hbuild. unfold dispatch.
  destruct err as [e |].
  - cbn [snd]. unfold fmt.Errorf_prefix_w, errMismatchedPlatformTypes.
    rewrite Is_wrapError_sentinel. exact Hdetect.
  - destruct (String.eqb platformType configv1.AWSPlatformType).
    + exact Hbuild.
    + reflexivity.
Qed.

Lemma dispatch_adds_no_mismatch_witness :
  Is (snd (dispatch acceptingConstructor ("", None) truncatedTemplate))
     (Some errMismatchedPlatformTypes) = false
  /\ Is (snd (dispatch rejectingConstructor (configv1.AWSPlatformType, None)
                awsTemplate))
        (Some errMismatchedPlatformTypes) = false.
Proof.
  split.
  - apply (dispatch_adds_no_mismatch acceptingConstructor "" None
             truncatedTemplate); reflexivity.
  - apply (dispatch_adds_no_mismatch rejectingConstructor
             configv1.AWSPlatformType None awsTemplate); reflexivity.
Defined.

(** X4: the error of [NewProviderConfig] names no platform.  For every
    template, whatever its failure domains and provider spec say, the text of
    the error is "unsupported platform type: " with nothing after the colon,
    and the error does not match [errMismatchedPlatformTypes]. *)
Theorem NewProviderConfig_error_text (newAWSProviderConfig : AWSConstructor)
    (tmpl : machinev1.OpenShiftMachineV1Beta1MachineTemplate) :
  option_map Error (snd (NewProviderConfig newAWSProviderConfig tmpl))
  = Some "unsupported platform type: "
  /\ Is (snd (NewProviderConfig newAWSProviderConfig tmpl))
        (Some errMismatchedPlatformTypes) = false.
Proof.
  rewrite NewProviderConfig_eq. split; reflexivity.
Qed.
